(** * asset-transfer-basic / application-javascript / app.js

    A shallow embedding of the demonstration driver [app.js]: the module
    constants, [prettyJSONString], and [main] with its nested
    try/finally/catch, run against an arbitrary ledger network, certificate
    authority and helper library (the [World]).  Every call that leaves the
    script is recorded, with its arguments and the way it settled, in a trace;
    the properties below are statements about the traces and the exit status
    of all runs. *)

From stdpp Require Import base strings gmap list.
From Stdlib Require Import Ascii String ZArith Lia.

Local Open Scope string_scope.

(** ** JSON text, as [JSON.parse] accepts it

    [prettyJSONString] hands the transaction result to [JSON.parse], which
    throws a [SyntaxError] unless the text is one JSON value surrounded by
    optional white space (ECMA-262, 25.5.1 and the JSON lexical grammar).
    The recogniser is a pushdown automaton that reads one character at a
    time, so it is total by structural recursion on the text.  A [Buffer] is
    converted by UTF-8 decoding; since every token outside a string literal is
    ASCII and a string literal takes every character from U+0020 on except
    the quote and the backslash, acceptance can be decided on the bytes. *)
Module JSON.

Inductive container := InArray | InObject.

Inductive mode :=
| MValue                      (* a value has to start here *)
| MValueOrClose               (* just after '[' *)
| MKeyOrClose                 (* just after '{' *)
| MKey                        (* after ',' inside an object *)
| MColon                      (* after a member name *)
| MAfter                      (* a value is complete *)
| MString (key : bool)        (* inside a string literal *)
| MEscape (key : bool)        (* after a backslash *)
| MHex (key : bool) (n : nat) (* inside \uXXXX, n + 1 digits to come *)
| MLiteral (rest : list ascii)(* inside null, true or false *)
| MMinus                      (* after '-' *)
| MZero                       (* after the integer part 0 *)
| MInt                        (* inside a non-zero integer part *)
| MDot                        (* after '.' *)
| MFrac                       (* inside the fraction digits *)
| MExp                        (* after 'e' or 'E' *)
| MExpSign                    (* after the sign of the exponent *)
| MExpDigits.                 (* inside the exponent digits *)

Definition code (c : ascii) : N := N_of_ascii c.

(** The quotation mark, U+0022. *)
Definition dquote : ascii := "034"%char.

Definition is_ws (c : ascii) : bool :=
  let n := code c in
  (n =? 9)%N || (n =? 10)%N || (n =? 13)%N || (n =? 32)%N.

Definition is_digit (c : ascii) : bool :=
  let n := code c in (48 <=? n)%N && (n <=? 57)%N.

Definition is_digit19 (c : ascii) : bool :=
  let n := code c in (49 <=? n)%N && (n <=? 57)%N.

Definition is_hex (c : ascii) : bool :=
  let n := code c in
  is_digit c || ((65 <=? n)%N && (n <=? 70)%N) || ((97 <=? n)%N && (n <=? 102)%N).

Definition is_exp (c : ascii) : bool :=
  Ascii.eqb c "e" || Ascii.eqb c "E".

Definition is_escape (c : ascii) : bool :=
  existsb (Ascii.eqb c) [dquote; "\"; "/"; "b"; "f"; "n"; "r"; "t"]%char.

(** What may follow a complete value. *)
Definition after (st : list container) (c : ascii) : option (mode * list container) :=
  if is_ws c then Some (MAfter, st)
  else if Ascii.eqb c "," then
    match st with
    | InArray :: _ => Some (MValue, st)
    | InObject :: _ => Some (MKey, st)
    | [] => None
    end
  else if Ascii.eqb c "]" then
    match st with InArray :: st' => Some (MAfter, st') | _ => None end
  else if Ascii.eqb c "}" then
    match st with InObject :: st' => Some (MAfter, st') | _ => None end
  else None.

(** The first character of a value. *)
Definition value_start (st : list container) (c : ascii) : option (mode * list container) :=
  if Ascii.eqb c dquote then Some (MString false, st)
  else if Ascii.eqb c "{" then Some (MKeyOrClose, InObject :: st)
  else if Ascii.eqb c "[" then Some (MValueOrClose, InArray :: st)
  else if Ascii.eqb c "-" then Some (MMinus, st)
  else if Ascii.eqb c "0" then Some (MZero, st)
  else if is_digit19 c then Some (MInt, st)
  else if Ascii.eqb c "t" then Some (MLiteral ["r"; "u"; "e"]%char, st)
  else if Ascii.eqb c "f" then Some (MLiteral ["a"; "l"; "s"; "e"]%char, st)
  else if Ascii.eqb c "n" then Some (MLiteral ["u"; "l"; "l"]%char, st)
  else None.

Definition step (m : mode) (st : list container) (c : ascii)
  : option (mode * list container) :=
  match m with
  | MValue => if is_ws c then Some (MValue, st) else value_start st c
  | MValueOrClose =>
      if is_ws c then Some (MValueOrClose, st)
      else if Ascii.eqb c "]" then
        match st with InArray :: st' => Some (MAfter, st') | _ => None end
      else value_start st c
  | MKeyOrClose =>
      if is_ws c then Some (MKeyOrClose, st)
      else if Ascii.eqb c "}" then
        match st with InObject :: st' => Some (MAfter, st') | _ => None end
      else if Ascii.eqb c dquote then Some (MString true, st)
      else None
  | MKey =>
      if is_ws c then Some (MKey, st)
      else if Ascii.eqb c dquote then Some (MString true, st)
      else None
  | MColon =>
      if is_ws c then Some (MColon, st)
      else if Ascii.eqb c ":" then Some (MValue, st)
      else None
  | MAfter => after st c
  | MString key =>
      if Ascii.eqb c dquote then Some (if key then MColon else MAfter, st)
      else if Ascii.eqb c "\" then Some (MEscape key, st)
      else if (code c <? 32)%N then None
      else Some (MString key, st)
  | MEscape key =>
      if is_escape c then Some (MString key, st)
      else if Ascii.eqb c "u" then Some (MHex key 3, st)
      else None
  | MHex key n =>
      if is_hex c then
        match n with
        | O => Some (MString key, st)
        | S n' => Some (MHex key n', st)
        end
      else None
  | MLiteral rest =>
      match rest with
      | [] => None
      | x :: rest' =>
          if Ascii.eqb c x then
            Some (match rest' with [] => MAfter | _ => MLiteral rest' end, st)
          else None
      end
  | MMinus =>
      if Ascii.eqb c "0" then Some (MZero, st)
      else if is_digit19 c then Some (MInt, st)
      else None
  | MZero =>
      if Ascii.eqb c "." then Some (MDot, st)
      else if is_exp c then Some (MExp, st)
      else after st c
  | MInt =>
      if is_digit c then Some (MInt, st)
      else if Ascii.eqb c "." then Some (MDot, st)
      else if is_exp c then Some (MExp, st)
      else after st c
  | MDot => if is_digit c then Some (MFrac, st) else None
  | MFrac =>
      if is_digit c then Some (MFrac, st)
      else if is_exp c then Some (MExp, st)
      else after st c
  | MExp =>
      if Ascii.eqb c "+" || Ascii.eqb c "-" then Some (MExpSign, st)
      else if is_digit c then Some (MExpDigits, st)
      else None
  | MExpSign => if is_digit c then Some (MExpDigits, st) else None
  | MExpDigits => if is_digit c then Some (MExpDigits, st) else after st c
  end.

(** At the end of the text: one whole value has been read. *)
Definition accepting (m : mode) (st : list container) : bool :=
  match st with
  | [] =>
      match m with
      | MAfter | MZero | MInt | MFrac | MExpDigits => true
      | _ => false
      end
  | _ :: _ => false
  end.

Fixpoint run (m : mode) (st : list container) (text : string) : bool :=
  match text with
  | EmptyString => accepting m st
  | String c text' =>
      match step m st c with
      | Some (m', st') => run m' st' text'
      | None => false
      end
  end.

(** [valid text] holds exactly when [JSON.parse(text)] returns. *)
Definition valid (text : string) : bool := run MValue [] text.

(** The text without the white space before and after the value: the value
    [JSON.parse] returns depends on no more than this. *)
Fixpoint ltrim (text : string) : string :=
  match text with
  | EmptyString => EmptyString
  | String c text' => if is_ws c then ltrim text' else text
  end.

Fixpoint rtrim (text : string) : string :=
  match text with
  | EmptyString => EmptyString
  | String c text' =>
      match rtrim text' with
      | EmptyString => if is_ws c then EmptyString else String c EmptyString
      | rest => String c rest
      end
  end.

Definition trim (text : string) : string := rtrim (ltrim text).

End JSON.

(** ** Values, calls and traces *)

(** An object of the SDK or of the helper library (connection profile, CA
    client, wallet, gateway, network, contract): the script never looks
    inside one, it only passes it on, so an object is its identity. *)
Definition obj := nat.

(** The payload of a committed transaction, a Node [Buffer]. *)
Definition Buffer := string.

(** [{ enabled: true, asLocalhost: true }] *)
Record DiscoveryOptions := { enabled : bool; asLocalhost : bool }.

(** The second argument of [gateway.connect]. *)
Record GatewayOptions := {
  wallet : obj;
  identity : string;
  discovery : DiscoveryOptions
}.

(** The calls that leave the script.  [buildCAClient] and [buildWallet] also
    receive the imported modules [FabricCAServices] and [Wallets], which are
    constants of the run. *)
Inductive call :=
| BuildCCPOrg1
| BuildCAClient (ccp : obj) (caHostName : string)
| BuildWallet (walletPath : string)
| EnrollAdmin (caClient wallet : obj) (orgMspId : string)
| RegisterAndEnrollUser (caClient wallet : obj) (orgMspId userId affiliation : string)
| NewGateway
| Connect (gateway ccp : obj) (options : GatewayOptions)
| GetNetwork (gateway : obj) (channelName : string)
| GetContract (network : obj) (chaincodeName : string)
| SubmitTransaction (contract : obj) (name : string) (args : list string)
| Disconnect (gateway : obj).

Inductive value :=
| VUndefined
| VObject (o : obj)
| VBuffer (b : Buffer).

(** How a call settled: it returned (its promise was fulfilled) or it threw
    (its promise was rejected); [reason] is the thrown value as the template
    literal of the top-level handler prints it. *)
Inductive reply :=
| Returned (v : value)
| Threw (reason : string).

(** What the script itself can have in hand as an exception. *)
Inductive exn :=
| Rejected (reason : string)     (* thrown by a call *)
| SyntaxError (text : string)    (* thrown by [JSON.parse] on [text] *)
| RangeError (text : string).    (* thrown while the value of [text] is rendered *)

(** [JSON.stringify(JSON.parse(text), null, 2)].  The layout at indent 2 and
    the printing of numbers belong to the platform; the rendering is
    identified by the text it renders. *)
Inductive pretty := Pretty (text : string).

(** What a template literal interpolates. *)
Inductive hole :=
| HPretty (p : pretty)
| HError (e : exn).

(** A console line: a string literal, or a template literal with one hole. *)
Inductive message :=
| Literal (s : string)
| Template (prefix : string) (h : hole).

Inductive event :=
| Call (c : call) (r : reply)
| ConsoleLog (m : message)
| ConsoleError (m : message).

Definition trace := list event.

(** ** The world the script runs in

    Outside the script every called function is free to return or to throw.
    No call is made twice with the same arguments in one run (the six
    submissions differ in name or arguments), so a world that answers by
    function name and arguments covers every behaviour of the network, the
    certificate authority and the helpers in a run.  [new Gateway()] and
    [gateway.disconnect()] only set up and clear fields of the SDK object and
    are taken to return.

    The platform decides as well whether [JSON.stringify(value, null, 2)]
    returns: it throws a [RangeError] when the value is nested deeper than
    the call stack can follow, or when its rendering is longer than a string
    can be.  Where that happens differs from one platform to the next; it
    depends on the value, which the text without the white space around it
    determines, so the world answers on that text. *)
Inductive outcome (A : Type) :=
| Returns (a : A)
| Throws (reason : string).
Arguments Returns {A} a.
Arguments Throws {A} reason.

Record World := {
  on_buildCCPOrg1 : outcome obj;
  on_buildCAClient : obj -> string -> outcome obj;
  on_buildWallet : string -> outcome obj;
  on_enrollAdmin : obj -> obj -> string -> outcome unit;
  on_registerAndEnrollUser : obj -> obj -> string -> string -> string -> outcome unit;
  on_new_Gateway : obj;
  on_connect : obj -> obj -> GatewayOptions -> outcome unit;
  on_getNetwork : obj -> string -> outcome obj;
  on_getContract : obj -> string -> outcome obj;
  on_submitTransaction : obj -> string -> list string -> outcome Buffer;
  on_JSON_stringify : string -> bool
}.

(** The process: its environment variables, and the value of
    [path.join(__dirname, 'wallet')], fixed by where the script is installed. *)
Record Host := {
  process_env : gmap string string;
  walletPath : string
}.

(** ** Control flow: a trace, and how the statement completed *)

Inductive completion (A : Type) :=
| Normal (a : A)
| Throw (e : exn)
| Exit (code : Z).           (* [process.exit(code)]: nothing runs after it *)
Arguments Normal {A} a.
Arguments Throw {A} e.
Arguments Exit {A} code.

Definition M (A : Type) : Type := trace * completion A.

#[global] Instance M_ret : MRet M := fun A a => ([], Normal a).

#[global] Instance M_bind : MBind M := fun A B k m =>
  match m with
  | (t1, Normal a) => let (t2, c) := k a in ((t1 ++ t2)%list, c)
  | (t1, Throw e) => (t1, Throw e)
  | (t1, Exit code) => (t1, Exit code)
  end.

Definition throw {A} (e : exn) : M A := ([], Throw e).

Definition process_exit {A} (code : Z) : M A := ([], Exit code).

Definition console_log (m : message) : M unit := ([ConsoleLog m], Normal tt).

Definition console_error (m : message) : M unit := ([ConsoleError m], Normal tt).

(** A call and its settlement; awaiting a rejected promise throws. *)
Definition invoke {A} (c : call) (inj : A -> value) (o : outcome A) : M A :=
  match o with
  | Returns a => ([Call c (Returned (inj a))], Normal a)
  | Throws reason => ([Call c (Threw reason)], Throw (Rejected reason))
  end.

(** [try { body } finally { fin }]: [fin] runs however [body] completed
    (unless the process is gone), and an abrupt completion of [fin]
    replaces the one of [body]. *)
Definition try_finally {A} (body : M A) (fin : M unit) : M A :=
  match body with
  | (t1, Exit code) => (t1, Exit code)
  | (t1, c1) =>
      let (t2, c2) := fin in
      ((t1 ++ t2)%list,
       match c2 with
       | Normal _ => c1
       | Throw e => Throw e
       | Exit code => Exit code
       end)
  end.

(** [try { body } catch (error) { handler }] *)
Definition try_catch {A} (body : M A) (handler : exn -> M A) : M A :=
  match body with
  | (t1, Throw e) => let (t2, c) := handler e in ((t1 ++ t2)%list, c)
  | (t1, Normal a) => (t1, Normal a)
  | (t1, Exit code) => (t1, Exit code)
  end.

(** ** The script *)

(** The line feed that starts the progress lines ('\n'). *)
Definition nl : string := String "010" "".

Section App.

Context (w : World) (h : Host).

(** [process.env.NAME || fallback]: an unset variable is [undefined], and
    both [undefined] and the empty string are falsy. *)
Definition env_or (name fallback : string) : string :=
  match process_env h !! name with
  | Some v => if String.eqb v "" then fallback else v
  | None => fallback
  end.

Definition channelName : string := env_or "CHANNEL_NAME" "mychannel".
Definition chaincodeName : string := env_or "CHAINCODE_NAME" "basic".

Definition mspOrg1 : string := "Org1MSP".
Definition org1UserId : string := "javascriptAppUser".

Definition prettyJSONString (inputString : string) : M pretty :=
  if JSON.valid inputString then
    if on_JSON_stringify w (JSON.trim inputString) then mret (Pretty inputString)
    else throw (RangeError inputString)
  else throw (SyntaxError inputString).

(** The imported helpers and the SDK methods, answered by the world. *)
Definition buildCCPOrg1 : M obj :=
  invoke BuildCCPOrg1 VObject (on_buildCCPOrg1 w).

Definition buildCAClient (ccp : obj) (caHostName : string) : M obj :=
  invoke (BuildCAClient ccp caHostName) VObject (on_buildCAClient w ccp caHostName).

Definition buildWallet (path : string) : M obj :=
  invoke (BuildWallet path) VObject (on_buildWallet w path).

Definition enrollAdmin (caClient wallet : obj) (orgMspId : string) : M unit :=
  invoke (EnrollAdmin caClient wallet orgMspId) (fun _ => VUndefined)
         (on_enrollAdmin w caClient wallet orgMspId).

Definition registerAndEnrollUser (caClient wallet : obj)
    (orgMspId userId affiliation : string) : M unit :=
  invoke (RegisterAndEnrollUser caClient wallet orgMspId userId affiliation)
         (fun _ => VUndefined)
         (on_registerAndEnrollUser w caClient wallet orgMspId userId affiliation).

Definition new_Gateway : M obj :=
  invoke NewGateway VObject (Returns (on_new_Gateway w)).

Definition connect (gateway ccp : obj) (options : GatewayOptions) : M unit :=
  invoke (Connect gateway ccp options) (fun _ => VUndefined)
         (on_connect w gateway ccp options).

Definition getNetwork (gateway : obj) (name : string) : M obj :=
  invoke (GetNetwork gateway name) VObject (on_getNetwork w gateway name).

Definition getContract (network : obj) (name : string) : M obj :=
  invoke (GetContract network name) VObject (on_getContract w network name).

Definition submitTransaction (contract : obj) (name : string) (args : list string)
  : M Buffer :=
  invoke (SubmitTransaction contract name args) VBuffer
         (on_submitTransaction w contract name args).

Definition disconnect (gateway : obj) : M unit :=
  invoke (Disconnect gateway) (fun _ => VUndefined) (Returns tt).

(** [async function main()], statement by statement. *)
Definition main : M unit :=
  try_catch
    (ccp ← buildCCPOrg1;
     caClient ← buildCAClient ccp "ca.org1.example.com";
     wallet ← buildWallet (walletPath h);
     enrollAdmin caClient wallet mspOrg1;;
     registerAndEnrollUser caClient wallet mspOrg1 org1UserId "org1.department1";;
     gateway ← new_Gateway;
     try_finally
       (connect gateway ccp
          {| wallet := wallet;
             identity := org1UserId;
             discovery := {| enabled := true; asLocalhost := true |} |};;
        network ← getNetwork gateway channelName;
        contract ← getContract network chaincodeName;

        console_log (Literal (nl ++ "--> Submit Transaction: InitLedger, function creates the initial set of assets on the ledger"));;
        submitTransaction contract "InitLedger" [];;
        console_log (Literal "*** Result: committed");;

        console_log (Literal (nl ++ "--> 트랜스퍼 101"));;
        result ← submitTransaction contract "Transfer"
          ["7cafb40b30e8f7f0c8f57393e2ea63ff58a95907";
           "f5c705db130ec0cbda536bfacc8e38425b427862"; "7500000"];
        text ← prettyJSONString result;
        console_log (Template "*** Result: " (HPretty text));;

        console_log (Literal (nl ++ "--> 트랜스퍼 102"));;
        result ← submitTransaction contract "Transfer"
          ["1a677a3795f8a24b5dd99f83ea31f87595e25db1";
           "18f1b4386f2e19e7dbf169ab2469c8fa8bc02976"; "1000000"];
        text ← prettyJSONString result;
        console_log (Template "*** Result: " (HPretty text));;

        console_log (Literal (nl ++ "--> 트랜스퍼 3"));;
        result ← submitTransaction contract "Transfer"
          ["0a8077182848001f47826e249f5d8e821ea263bd";
           "1a677a3795f8a24b5dd99f83ea31f87595e25db1"; "100000"];
        text ← prettyJSONString result;
        console_log (Template "*** Result: " (HPretty text));;

        console_log (Literal (nl ++ "--> 트랜스퍼 4"));;
        result ← submitTransaction contract "Transfer"
          ["1a677a3795f8a24b5dd99f83ea31f87595e25db1";
           "b284bea203a5c7e0fbae062650c067297579106a"; "129000000"];
        text ← prettyJSONString result;
        console_log (Template "*** Result: " (HPretty text));;

        console_log (Literal (nl ++ "--> 트랜스퍼 5"));;
        result ← submitTransaction contract "Transfer"
          ["78e15f1699dbb6c8a438e90c02044cfa9b9233f3";
           "17732863dbd50ee07039048d05d1a144297492b2"; "220000000"];
        text ← prettyJSONString result;
        console_log (Template "*** Result: " (HPretty text)))
       (disconnect gateway))
    (fun error =>
       console_error (Template "******** FAILED to run the application: " (HError error));;
       process_exit 1).

(** [main();] at the end of the module.  The trace of the run and the exit
    status of the process: the code given to [process.exit], or 0 when [main]
    returns and the event loop drains; a rejection that escaped [main] would
    end the process with status 1. *)
Definition execute : trace * Z :=
  match main with
  | (t, Normal _) => (t, 0%Z)
  | (t, Throw _) => (t, 1%Z)
  | (t, Exit code) => (t, code)
  end.

End App.

(** ** Observations on a run *)

(** The transactions submitted, in order: function name and arguments. *)
Definition submission_of (e : event) : option (string * list string) :=
  match e with
  | Call (SubmitTransaction _ name args) _ => Some (name, args)
  | _ => None
  end.

Definition submissions (t : trace) : list (string * list string) :=
  omap submission_of t.

(** The [Transfer] submissions, in order: arguments and settlement. *)
Definition transfer_of (e : event) : option (list string * reply) :=
  match e with
  | Call (SubmitTransaction _ name args) r =>
      if String.eqb name "Transfer" then Some (args, r) else None
  | _ => None
  end.

Definition transfers (t : trace) : list (list string * reply) :=
  omap transfer_of t.

(** The gateways created, and the gateways on which [disconnect] was called. *)
Definition gateway_of (e : event) : option obj :=
  match e with
  | Call NewGateway (Returned (VObject g)) => Some g
  | _ => None
  end.

Definition gateways (t : trace) : list obj := omap gateway_of t.

Definition disconnect_of (e : event) : option obj :=
  match e with
  | Call (Disconnect g) _ => Some g
  | _ => None
  end.

Definition disconnected (t : trace) : list obj := omap disconnect_of t.

(** What [main] itself writes with [console.log] and with [console.error].
    The helpers and the SDK write to the console on their own account; that
    is outside the script and outside the trace. *)
Definition log_of (e : event) : option message :=
  match e with ConsoleLog m => Some m | _ => None end.

Definition console_logs (t : trace) : list message := omap log_of t.

Definition error_of (e : event) : option message :=
  match e with ConsoleError m => Some m | _ => None end.

Definition console_errors (t : trace) : list message := omap error_of t.

(** The line the top-level handler prints for [error]. *)
Definition failed_line (error : exn) : message :=
  Template "******** FAILED to run the application: " (HError error).

(** The steps before the gateway exists. *)
Definition is_setup (c : call) : bool :=
  match c with
  | BuildCCPOrg1 | BuildCAClient _ _ | BuildWallet _
  | EnrollAdmin _ _ _ | RegisterAndEnrollUser _ _ _ _ _ => true
  | _ => false
  end.

Definition setup_threw (e : event) : bool :=
  match e with
  | Call c (Threw _) => is_setup c
  | _ => false
  end.

(** A call that threw. *)
Definition threw (e : event) : bool :=
  match e with
  | Call _ (Threw _) => true
  | _ => false
  end.

(** A text that [prettyJSONString] formats: [JSON.parse] accepts it and
    [JSON.stringify] renders its value. *)
Definition formattable (w : World) (text : string) : bool :=
  JSON.valid text && on_JSON_stringify w (JSON.trim text).

(** A [Transfer] result that cannot be formatted. *)
Definition unformattable (w : World) (e : event) : bool :=
  match e with
  | Call (SubmitTransaction _ name _) (Returned (VBuffer b)) =>
      String.eqb name "Transfer" && negb (formattable w b)
  | _ => false
  end.

(** A run in which nothing failed: every call returned and every [Transfer]
    result could be formatted, parsed and rendered. *)
Definition clean (w : World) (t : trace) : bool :=
  forallb (fun e => negb (threw e) && negb (unformattable w e)) t.

(** The confirmation lines: for [InitLedger], and for a [Transfer] result. *)
Definition is_confirmation (m : message) : Prop :=
  m = Literal "*** Result: committed" \/
  exists text, m = Template "*** Result: " (HPretty (Pretty text)).

(** [each_split P before t]: [P] holds of every event of [t] together with
    the events before it ([before] and the part of [t] already passed) and
    the events after it. *)
Fixpoint each_split (P : trace -> event -> trace -> Prop) (before t : trace) : Prop :=
  match t with
  | [] => True
  | e :: t' => P before e t' /\ each_split P (before ++ [e])%list t'
  end.

(** The five argument triples of the [Transfer] calls, lines 130 to 157. *)
Definition transfer_calls : list (list string) :=
  [ ["7cafb40b30e8f7f0c8f57393e2ea63ff58a95907";
     "f5c705db130ec0cbda536bfacc8e38425b427862"; "7500000"];
    ["1a677a3795f8a24b5dd99f83ea31f87595e25db1";
     "18f1b4386f2e19e7dbf169ab2469c8fa8bc02976"; "1000000"];
    ["0a8077182848001f47826e249f5d8e821ea263bd";
     "1a677a3795f8a24b5dd99f83ea31f87595e25db1"; "100000"];
    ["1a677a3795f8a24b5dd99f83ea31f87595e25db1";
     "b284bea203a5c7e0fbae062650c067297579106a"; "129000000"];
    ["78e15f1699dbb6c8a438e90c02044cfa9b9233f3";
     "17732863dbd50ee07039048d05d1a144297492b2"; "220000000"] ].

(** ** Sample worlds *)

(** A network on which everything works; [answer] decides each submission. *)
Definition world_with (answer : string -> list string -> outcome Buffer) : World :=
  {| on_buildCCPOrg1 := Returns 1%nat;
     on_buildCAClient := fun _ _ => Returns 2%nat;
     on_buildWallet := fun _ => Returns 3%nat;
     on_enrollAdmin := fun _ _ _ => Returns tt;
     on_registerAndEnrollUser := fun _ _ _ _ _ => Returns tt;
     on_new_Gateway := 4%nat;
     on_connect := fun _ _ _ => Returns tt;
     on_getNetwork := fun _ _ => Returns 5%nat;
     on_getContract := fun _ _ => Returns 6%nat;
     on_submitTransaction := fun _ => answer;
     on_JSON_stringify := fun _ => true |}.

(** [InitLedger] returns nothing; a transfer returns a JSON object. *)
Definition committed (name : string) (args : list string) : outcome Buffer :=
  Returns (if String.eqb name "InitLedger" then "" else "{}").

Definition world_ok : World := world_with committed.

(** The transfer of [amount] gets the answer [o]. *)
Definition answer_for (amount : string) (o : outcome Buffer)
    (name : string) (args : list string) : outcome Buffer :=
  if String.eqb (List.last args "") amount then o else committed name args.

(** The endorsing peers reject the third transfer. *)
Definition world_rejecting : World :=
  world_with (answer_for "100000" (Throws "Error: No valid responses from any peers")).

(** The fifth transfer commits with an empty payload. *)
Definition world_empty_payload : World :=
  world_with (answer_for "220000000" (Returns "")).

(** The fourth transfer returns arrays nested three deep, and the platform
    renders no nesting deeper than two. *)
Definition world_shallow_stack : World :=
  {| on_buildCCPOrg1 := on_buildCCPOrg1 world_ok;
     on_buildCAClient := on_buildCAClient world_ok;
     on_buildWallet := on_buildWallet world_ok;
     on_enrollAdmin := on_enrollAdmin world_ok;
     on_registerAndEnrollUser := on_registerAndEnrollUser world_ok;
     on_new_Gateway := on_new_Gateway world_ok;
     on_connect := on_connect world_ok;
     on_getNetwork := on_getNetwork world_ok;
     on_getContract := on_getContract world_ok;
     on_submitTransaction := fun _ => answer_for "129000000" (Returns " [[[]]] ");
     on_JSON_stringify := fun text => negb (String.eqb text "[[[]]]") |}.

(** The connection profile cannot be read. *)
Definition world_no_profile : World :=
  {| on_buildCCPOrg1 := Throws "Error: no such file: connection-org1.json";
     on_buildCAClient := on_buildCAClient world_ok;
     on_buildWallet := on_buildWallet world_ok;
     on_enrollAdmin := on_enrollAdmin world_ok;
     on_registerAndEnrollUser := on_registerAndEnrollUser world_ok;
     on_new_Gateway := on_new_Gateway world_ok;
     on_connect := on_connect world_ok;
     on_getNetwork := on_getNetwork world_ok;
     on_getContract := on_getContract world_ok;
     on_submitTransaction := on_submitTransaction world_ok;
     on_JSON_stringify := on_JSON_stringify world_ok |}.

(** A string literal of JSON: [s] between quotation marks. *)
Definition quoted (s : string) : string :=
  String JSON.dquote (s ++ String JSON.dquote "").

Definition host_default : Host :=
  {| process_env := ∅; walletPath := "/app/wallet" |}.

Definition host_custom : Host :=
  {| process_env := {[ "CHANNEL_NAME" := "amlchannel"; "CHAINCODE_NAME" := "aml" ]};
     walletPath := "/app/wallet" |}.

(** ** Further observations *)

(** The calls of a run, in order. *)
Definition call_of (e : event) : option call :=
  match e with Call c _ => Some c | _ => None end.

Definition calls (t : trace) : list call := omap call_of t.

Definition is_disconnect (c : call) : bool :=
  match c with Disconnect _ => true | _ => false end.

(** The calls other than the final [disconnect]. *)
Definition issued (t : trace) : list call :=
  List.filter (fun c => negb (is_disconnect c)) (calls t).

(** The function a call invokes, as the source writes it. *)
Definition callee (c : call) : string :=
  match c with
  | BuildCCPOrg1 => "buildCCPOrg1"
  | BuildCAClient _ _ => "buildCAClient"
  | BuildWallet _ => "buildWallet"
  | EnrollAdmin _ _ _ => "enrollAdmin"
  | RegisterAndEnrollUser _ _ _ _ _ => "registerAndEnrollUser"
  | NewGateway => "new Gateway"
  | Connect _ _ _ => "gateway.connect"
  | GetNetwork _ _ => "gateway.getNetwork"
  | GetContract _ _ => "network.getContract"
  | SubmitTransaction _ _ _ => "contract.submitTransaction"
  | Disconnect _ => "gateway.disconnect"
  end.

(** The calls of [main] in the order of its statements, lines 76 to 158. *)
Definition script_calls : list string :=
  [ "buildCCPOrg1"; "buildCAClient"; "buildWallet"; "enrollAdmin";
    "registerAndEnrollUser"; "new Gateway"; "gateway.connect";
    "gateway.getNetwork"; "network.getContract";
    "contract.submitTransaction"; "contract.submitTransaction";
    "contract.submitTransaction"; "contract.submitTransaction";
    "contract.submitTransaction"; "contract.submitTransaction" ].

(** Where the arguments of a call come from: [wired h before e] says that
    the objects the call [e] receives are the ones earlier calls (in
    [before]) returned, and that its constant arguments are the ones of the
    source. *)
Definition wired (h : Host) (before : trace) (e : event) : Prop :=
  match e with
  | Call (BuildCAClient ccp caHostName) _ =>
      caHostName = "ca.org1.example.com" /\
      In (Call BuildCCPOrg1 (Returned (VObject ccp))) before
  | Call (BuildWallet path) _ => path = walletPath h
  | Call (EnrollAdmin caClient wallet orgMspId) _ =>
      orgMspId = "Org1MSP" /\
      (exists ccp, In (Call (BuildCAClient ccp "ca.org1.example.com")
                            (Returned (VObject caClient))) before) /\
      In (Call (BuildWallet (walletPath h)) (Returned (VObject wallet))) before
  | Call (RegisterAndEnrollUser caClient wallet _ _ _) _ =>
      In (Call (EnrollAdmin caClient wallet "Org1MSP") (Returned VUndefined)) before
  | Call (Connect gateway ccp options) _ =>
      In (Call NewGateway (Returned (VObject gateway))) before /\
      In (Call BuildCCPOrg1 (Returned (VObject ccp))) before /\
      discovery options = {| enabled := true; asLocalhost := true |}
  | Call (GetNetwork gateway _) _ =>
      exists ccp options,
        In (Call (Connect gateway ccp options) (Returned VUndefined)) before
  | Call (GetContract network _) _ =>
      exists gateway,
        In (Call (GetNetwork gateway (channelName h)) (Returned (VObject network)))
           before
  | Call (SubmitTransaction contract _ _) _ =>
      exists network,
        In (Call (GetContract network (chaincodeName h)) (Returned (VObject contract)))
           before
  | Call (Disconnect gateway) r =>
      r = Returned VUndefined /\
      In (Call NewGateway (Returned (VObject gateway))) before
  | _ => True
  end.

(** CHANNEL_NAME is set, to the empty string. *)
Definition host_empty_name : Host :=
  {| process_env := {[ "CHANNEL_NAME" := "" ]}; walletPath := "/app/wallet" |}.

(** A text of white space only. *)
Fixpoint blank (s : string) : bool :=
  match s with
  | EmptyString => true
  | String c s' => JSON.is_ws c && blank s'
  end.

(** The literals [null], [true] and [false] hold no white space: a mode the
    recogniser can be in never waits for a white-space character of a
    literal. *)
Definition solid (m : JSON.mode) : bool :=
  match m with
  | JSON.MLiteral rest => forallb (fun c => negb (JSON.is_ws c)) rest
  | _ => true
  end.

(** * Properties *)

(** ** [JSON.parse] on sample texts *)

Example json_empty_text : JSON.valid "" = false.
Proof. reflexivity. Qed.

Example json_empty_object : JSON.valid "{}" = true.
Proof. reflexivity. Qed.

Example json_object :
  JSON.valid ("{ " ++ quoted "from" ++ " : [1, -0.5e+3, true, null], "
              ++ quoted "to" ++ ": {} }") = true.
Proof. reflexivity. Qed.

Example json_escapes : JSON.valid (quoted "a\né\\") = true.
Proof. reflexivity. Qed.

Example json_bad_escape : JSON.valid (quoted "a\x") = false.
Proof. reflexivity. Qed.

Example json_leading_zero : JSON.valid "0123" = false.
Proof. reflexivity. Qed.

Example json_trailing_comma : JSON.valid "[1, 2,]" = false.
Proof. reflexivity. Qed.

Example json_unquoted_key : JSON.valid "{from: 1}" = false.
Proof. reflexivity. Qed.

Example json_two_values : JSON.valid "{} {}" = false.
Proof. reflexivity. Qed.

(** ** Sample runs *)

(** The connection profile cannot be built: the failure is printed and the
    process exits with status 1; no gateway was created. *)
Example run_without_profile :
  execute world_no_profile host_default
  = ([Call BuildCCPOrg1 (Threw "Error: no such file: connection-org1.json");
      ConsoleError
        (Template "******** FAILED to run the application: "
           (HError (Rejected "Error: no such file: connection-org1.json")))],
     1%Z).
Proof. reflexivity. Qed.

(** The third transfer is rejected: the gateway is disconnected, then the
    failure is printed. *)
Example run_rejecting_end :
  drop 18 (fst (execute world_rejecting host_default))
  = [ConsoleLog (Literal (nl ++ "--> 트랜스퍼 3"));
     Call (SubmitTransaction 6%nat "Transfer"
             ["0a8077182848001f47826e249f5d8e821ea263bd";
              "1a677a3795f8a24b5dd99f83ea31f87595e25db1"; "100000"])
          (Threw "Error: No valid responses from any peers");
     Call (Disconnect 4%nat) (Returned VUndefined);
     ConsoleError
       (Template "******** FAILED to run the application: "
          (HError (Rejected "Error: No valid responses from any peers")))].
Proof. reflexivity. Qed.

(** The fifth transfer returns an empty payload: formatting it throws. *)
Example run_empty_payload_end :
  drop 24 (fst (execute world_empty_payload host_default))
  = [ConsoleLog (Literal (nl ++ "--> 트랜스퍼 5"));
     Call (SubmitTransaction 6%nat "Transfer"
             ["78e15f1699dbb6c8a438e90c02044cfa9b9233f3";
              "17732863dbd50ee07039048d05d1a144297492b2"; "220000000"])
          (Returned (VBuffer ""));
     Call (Disconnect 4%nat) (Returned VUndefined);
     ConsoleError
       (Template "******** FAILED to run the application: "
          (HError (SyntaxError "")))].
Proof. reflexivity. Qed.

(** The fourth transfer returns a value the platform cannot render:
    [JSON.stringify] throws, no later transfer is submitted. *)
Example run_shallow_stack_end :
  drop 21 (fst (execute world_shallow_stack host_default))
  = [ConsoleLog (Literal (nl ++ "--> 트랜스퍼 4"));
     Call (SubmitTransaction 6%nat "Transfer"
             ["1a677a3795f8a24b5dd99f83ea31f87595e25db1";
              "b284bea203a5c7e0fbae062650c067297579106a"; "129000000"])
          (Returned (VBuffer " [[[]]] "));
     Call (Disconnect 4%nat) (Returned VUndefined);
     ConsoleError
       (Template "******** FAILED to run the application: "
          (HError (RangeError " [[[]]] ")))] /\
  snd (execute world_shallow_stack host_default) = 1%Z.
Proof. split; reflexivity. Qed.

(** ** Reading a trace *)

Lemma each_split_from (P : trace -> event -> trace -> Prop) (t before : trace) :
  each_split P before t ->
  forall t1 e t2, t = (t1 ++ e :: t2)%list -> P (before ++ t1)%list e t2.
Proof.
  revert before. induction t as [|e0 t IH]; intros before Hall t1 e t2 Heq.
  - destruct t1; discriminate.
  - destruct Hall as [Hhead Htail]. destruct t1 as [|e1 t1]; simpl in Heq.
    + injection Heq as -> ->. now rewrite List.app_nil_r.
    + injection Heq as -> ->.
      specialize (IH _ Htail t1 e t2 eq_refl).
      now rewrite <- List.app_assoc in IH.
Qed.

Lemma each_split_spec (P : trace -> event -> trace -> Prop) (t : trace) :
  each_split P [] t ->
  forall t1 e t2, t = (t1 ++ e :: t2)%list -> P t1 e t2.
Proof.
  intros Hall t1 e t2 Heq. exact (each_split_from P t [] Hall t1 e t2 Heq).
Qed.

(** ** The runs of the script, case by case *)

(** The answer the run is waiting for: the scrutinee at the head of [t]. *)
Ltac pending t :=
  lazymatch t with
  | match ?x with Returns _ => _ | Throws _ => _ end => pending x
  | match ?x with Normal _ => _ | Throw _ => _ | Exit _ => _ end => pending x
  | match ?x with pair _ _ => _ end => pending x
  | if ?x then _ else _ => pending x
  | _ => t
  end.

(** Run up to the next answer, decide it both ways, and go on. *)
Ltac run_on Q :=
  lazymatch goal with
  | |- Q ?t =>
      let t' := eval lazy head beta iota zeta delta
        [execute main buildCCPOrg1 buildCAClient buildWallet enrollAdmin
         registerAndEnrollUser new_Gateway connect getNetwork getContract
         submitTransaction disconnect prettyJSONString
         invoke mbind M_bind mret M_ret try_catch try_finally console_log
         console_error throw process_exit] in t in
      change (Q t');
      lazymatch t' with
      | pair _ _ => idtac
      | _ => let o := pending t' in destruct o eqn:?; run_on Q
      end
  end.

(** All the runs of [r], which is [execute w h] or [main w h]; the statement
    is set aside while the answers are decided, and comes back applied to
    each run. *)
Ltac runs_of r :=
  pattern r;
  lazymatch goal with
  | |- ?P _ =>
      let Q := fresh "Q" in
      set (Q := P); run_on Q; subst Q; cbv beta
  end.

Ltac run_cases :=
  lazymatch goal with
  | |- context [execute ?w ?h] => runs_of (execute w h)
  end.

(** Put what is known about the results into the goal. *)
Ltac use_validity :=
  repeat match goal with
         | H : JSON.valid _ = _ |- _ => rewrite ?H; clear H
         | H : on_JSON_stringify _ _ = _ |- _ => rewrite ?H; clear H
         end.

#[local] Arguments JSON.valid : simpl never.
#[local] Arguments JSON.trim : simpl never.

(** [main] handles every exception itself: it returns or it exits. *)
Lemma main_never_throws (w : World) (h : Host) (e : exn) :
  snd (main w h) <> Throw e.
Proof.
  runs_of (main w h); discriminate.
Qed.

(** ** The transactions submitted *)

(** C8.  In every run, every transaction the driver submits is either the
    function [InitLedger] with no argument or the function [Transfer] with
    exactly three arguments (all of them strings: from-account, to-account,
    amount); no other function name or arity is submitted. *)
Theorem submitted_call_surface (w : World) (h : Host) :
  Forall (fun s : string * list string =>
            s = ("InitLedger", []) \/
            exists from to amount, s = ("Transfer", [from; to; amount]))
         (submissions (fst (execute w h))).
Proof.
  run_cases; cbn; repeat (constructor; [ eauto | ]); constructor.
Qed.

(** C1, as the code has it.  In every run the [Transfer] submissions are an
    initial segment of the five literal triples, in source order; in a run
    that ends with status 0 they are all five, the triple with amount
    7500000 is the first of them, and it is the second transaction submitted
    in the run, [InitLedger] being the first. *)
Theorem transfers_in_source_order (w : World) (h : Host) :
  map fst (transfers (fst (execute w h)))
    = take (List.length (transfers (fst (execute w h)))) transfer_calls /\
  (snd (execute w h) = 0%Z ->
   map fst (transfers (fst (execute w h))) = transfer_calls /\
   map fst (transfers (fst (execute w h))) !! 0%nat
     = Some ["7cafb40b30e8f7f0c8f57393e2ea63ff58a95907";
             "f5c705db130ec0cbda536bfacc8e38425b427862"; "7500000"] /\
   submissions (fst (execute w h))
     = ("InitLedger", []) :: map (pair "Transfer") transfer_calls /\
   submissions (fst (execute w h)) !! 1%nat
     = Some ("Transfer", ["7cafb40b30e8f7f0c8f57393e2ea63ff58a95907";
                          "f5c705db130ec0cbda536bfacc8e38425b427862"; "7500000"])).
Proof.
  run_cases; cbn; (split; [ reflexivity | ]); intros Hstatus;
    first [ discriminate Hstatus | repeat split ].
Qed.

(** The run on [world_ok] ends with status 0, so all five transfers are
    submitted, the one of 7500000 first. *)
Lemma transfers_in_source_order_witness :
  snd (execute world_ok host_default) = 0%Z /\
  map fst (transfers (fst (execute world_ok host_default))) = transfer_calls.
Proof.
  split.
  - vm_compute. reflexivity.
  - apply (proj2 (transfers_in_source_order world_ok host_default)).
    vm_compute. reflexivity.
Defined.

(** C1 as stated fails: on [world_ok] all five transfers are submitted, and
    call #2 of the five is the transfer of 1000000, not the one of 7500000. *)
Lemma second_transfer_is_not_7500000 :
  snd (execute world_ok host_default) = 0%Z /\
  List.length (transfers (fst (execute world_ok host_default))) = 5%nat /\
  map fst (transfers (fst (execute world_ok host_default))) !! 1%nat
    = Some ["1a677a3795f8a24b5dd99f83ea31f87595e25db1";
            "18f1b4386f2e19e7dbf169ab2469c8fa8bc02976"; "1000000"] /\
  map fst (transfers (fst (execute world_ok host_default))) !! 1%nat
    <> Some ["7cafb40b30e8f7f0c8f57393e2ea63ff58a95907";
             "f5c705db130ec0cbda536bfacc8e38425b427862"; "7500000"].
Proof.
  vm_compute. repeat split; try reflexivity. discriminate.
Qed.

(** ** Failures *)

(** C2.  For every run and every N from 1 to 5 (here N = i + 1): when the
    N-th [Transfer] submission rejects, it is one of the five calls of the
    source, the [Transfer] calls attempted in the run are exactly the first N,
    so that none with a greater index is attempted, the rejected one is the
    last transaction submitted, and the process ends with status 1. *)
Theorem rejected_transfer_aborts (w : World) (h : Host)
    (i : nat) (args : list string) (reason : string) :
  transfers (fst (execute w h)) !! i = Some (args, Threw reason) ->
  transfer_calls !! i = Some args /\
  List.length (transfers (fst (execute w h))) = S i /\
  List.last (submissions (fst (execute w h))) ("", []) = ("Transfer", args) /\
  snd (execute w h) = 1%Z.
Proof.
  run_cases; cbn; intros Hi;
    repeat (destruct i as [|i]; cbn in Hi; try discriminate Hi);
    injection Hi as <- <-; repeat split.
Qed.

(** On [world_rejecting] the third transfer is rejected: three transfers are
    attempted and the status is 1. *)
Lemma rejected_transfer_aborts_witness :
  transfers (fst (execute world_rejecting host_default)) !! 2%nat
    = Some (["0a8077182848001f47826e249f5d8e821ea263bd";
             "1a677a3795f8a24b5dd99f83ea31f87595e25db1"; "100000"],
            Threw "Error: No valid responses from any peers") /\
  List.length (transfers (fst (execute world_rejecting host_default))) = 3%nat /\
  snd (execute world_rejecting host_default) = 1%Z.
Proof.
  split; [ vm_compute; reflexivity | ].
  destruct (rejected_transfer_aborts world_rejecting host_default 2%nat
              ["0a8077182848001f47826e249f5d8e821ea263bd";
               "1a677a3795f8a24b5dd99f83ea31f87595e25db1"; "100000"]
              "Error: No valid responses from any peers")
    as (_ & Hlen & _ & Hstatus).
  - vm_compute. reflexivity.
  - split; assumption.
Defined.

(** ** Order *)

(** C3.  In every run, whenever a [Transfer] call is issued, however it
    settles, the [InitLedger] submission to the same contract has already
    returned: no [Transfer] submission precedes the completion of
    [InitLedger]. *)
Theorem init_ledger_completes_first (w : World) (h : Host)
    (t1 t2 : trace) (contract : obj) (args : list string) (r : reply) :
  fst (execute w h)
    = (t1 ++ Call (SubmitTransaction contract "Transfer" args) r :: t2)%list ->
  exists payload,
    In (Call (SubmitTransaction contract "InitLedger" []) (Returned (VBuffer payload))) t1.
Proof.
  intros Hsplit.
  refine (each_split_spec
    (fun before e _ =>
       match e with
       | Call (SubmitTransaction c name _) _ =>
           name = "Transfer" ->
           exists payload,
             In (Call (SubmitTransaction c "InitLedger" []) (Returned (VBuffer payload)))
                before
       | _ => True
       end) _ _ t1 _ t2 Hsplit eq_refl).
  clear. run_cases; cbn; repeat split; try discriminate;
    intros _; eexists; repeat (first [ left; reflexivity | right ]).
Qed.

(** On [world_ok] the second transfer is issued after [InitLedger] returned. *)
Lemma init_ledger_completes_first_witness :
  exists t1 t2 payload,
    fst (execute world_ok host_default)
      = (t1 ++ Call (SubmitTransaction 6%nat "Transfer"
                       ["1a677a3795f8a24b5dd99f83ea31f87595e25db1";
                        "18f1b4386f2e19e7dbf169ab2469c8fa8bc02976"; "1000000"])
                    (Returned (VBuffer "{}")) :: t2)%list /\
    In (Call (SubmitTransaction 6%nat "InitLedger" []) (Returned (VBuffer payload))) t1.
Proof.
  exists (take 16 (fst (execute world_ok host_default))),
         (drop 17 (fst (execute world_ok host_default))).
  assert (Hsplit : fst (execute world_ok host_default)
      = (take 16 (fst (execute world_ok host_default))
         ++ Call (SubmitTransaction 6%nat "Transfer"
                    ["1a677a3795f8a24b5dd99f83ea31f87595e25db1";
                     "18f1b4386f2e19e7dbf169ab2469c8fa8bc02976"; "1000000"])
                 (Returned (VBuffer "{}"))
         :: drop 17 (fst (execute world_ok host_default)))%list)
    by (vm_compute; reflexivity).
  destruct (init_ledger_completes_first world_ok host_default _ _ _ _ _ Hsplit)
    as [payload Hin].
  exists payload. split; [ exact Hsplit | exact Hin ].
Defined.

(** ** The gateway *)

(** C4, as the code has it.  In every run [disconnect] is called on exactly
    the gateways that were created, of which there is at most one: exactly
    once when the identity setup (connection profile, CA client, wallet,
    admin and user enrolment) completed, whatever happens afterwards, in
    particular when connect, the network or contract resolution or a
    transaction submission fails; and never when a step of the identity
    setup throws, since no gateway exists then. *)
Theorem disconnect_once_per_gateway (w : World) (h : Host) :
  disconnected (fst (execute w h)) = gateways (fst (execute w h)) /\
  (existsb setup_threw (fst (execute w h)) = false ->
   disconnected (fst (execute w h)) = [on_new_Gateway w]) /\
  (existsb setup_threw (fst (execute w h)) = true ->
   disconnected (fst (execute w h)) = []) /\
  (forall c reason,
     In (Call c (Threw reason)) (fst (execute w h)) -> is_setup c = false ->
     disconnected (fst (execute w h)) = [on_new_Gateway w]).
Proof.
  run_cases; cbn; (split; [ reflexivity | ]);
    (split; [ intros Hs; first [ discriminate Hs | reflexivity ] | ]);
    (split; [ intros Hs; first [ discriminate Hs | reflexivity ] | ]);
    intros ? ? Hin Hc;
    repeat (destruct Hin as [Hin | Hin];
            [ first [ discriminate Hin
                    | injection Hin as <- <-; first [ discriminate Hc | reflexivity ] ]
            | ]);
    destruct Hin.
Qed.

(** On [world_rejecting] no setup step throws and a submission is rejected:
    the gateway is disconnected once. *)
Lemma disconnect_once_per_gateway_witness :
  existsb setup_threw (fst (execute world_rejecting host_default)) = false /\
  disconnected (fst (execute world_rejecting host_default)) = [4%nat].
Proof.
  split; [ vm_compute; reflexivity | ].
  apply (proj1 (proj2 (disconnect_once_per_gateway world_rejecting host_default))).
  vm_compute. reflexivity.
Defined.

(** C4 as stated fails: when the connection profile cannot be built the run
    fails (status 1) and the gateway is not disconnected once, but never. *)
Lemma no_gateway_no_disconnect :
  snd (execute world_no_profile host_default) = 1%Z /\
  disconnected (fst (execute world_no_profile host_default)) = [] /\
  List.length (disconnected (fst (execute world_no_profile host_default))) <> 1%nat.
Proof.
  vm_compute. repeat split; try reflexivity. discriminate.
Qed.

(** C5.  Every failure thrown by a step (building the connection profile, the
    CA client or the wallet, an enrolment, the gateway connect, the network or
    contract resolution, a transaction submission) reaches the top-level
    handler, which prints one line for it, carrying the thrown value, and
    ends the process with status 1.  A run in which nothing fails (every
    call returns, and every [Transfer] result is parsed by [JSON.parse] and
    rendered by [JSON.stringify]) prints no such line and ends with status 0;
    every other run prints exactly one and ends with status 1. *)
Theorem failures_caught_at_top_level (w : World) (h : Host) :
  (forall c reason,
     In (Call c (Threw reason)) (fst (execute w h)) ->
     console_errors (fst (execute w h)) = [failed_line (Rejected reason)] /\
     snd (execute w h) = 1%Z) /\
  (clean w (fst (execute w h)) = true ->
   console_errors (fst (execute w h)) = [] /\ snd (execute w h) = 0%Z) /\
  (clean w (fst (execute w h)) = false ->
   (exists error, console_errors (fst (execute w h)) = [failed_line error]) /\
   snd (execute w h) = 1%Z).
Proof.
  run_cases; cbn; unfold formattable; use_validity; cbn;
    (split;
     [ intros ? ? Hin;
       repeat (destruct Hin as [Hin | Hin];
               [ first [ discriminate Hin
                       | injection Hin as <- <-; split; reflexivity ]
               | ]);
       destruct Hin
     | split; intros Hclean; first [ discriminate Hclean | split; eauto ] ]).
Qed.

(** On [world_rejecting] the rejection of the third transfer is printed once
    and the status is 1; on [world_ok] nothing fails and the status is 0; on
    [world_shallow_stack] every call returns, the fourth result cannot be
    rendered, and the status is 1. *)
Lemma failures_caught_at_top_level_witness :
  (console_errors (fst (execute world_rejecting host_default))
     = [failed_line (Rejected "Error: No valid responses from any peers")] /\
   snd (execute world_rejecting host_default) = 1%Z) /\
  (clean world_ok (fst (execute world_ok host_default)) = true /\
   snd (execute world_ok host_default) = 0%Z) /\
  (existsb threw (fst (execute world_shallow_stack host_default)) = false /\
   clean world_shallow_stack (fst (execute world_shallow_stack host_default)) = false /\
   snd (execute world_shallow_stack host_default) = 1%Z).
Proof.
  split; [ | split ]; [ | | split; [ vm_compute; reflexivity | ] ].
  3: { assert (Hclean : clean world_shallow_stack
                          (fst (execute world_shallow_stack host_default)) = false)
         by (vm_compute; reflexivity).
       split; [ exact Hclean | ].
       exact (proj2 (proj2 (proj2 (failures_caught_at_top_level
                                     world_shallow_stack host_default)) Hclean)). }
  - apply (proj1 (failures_caught_at_top_level world_rejecting host_default)
             (SubmitTransaction 6%nat "Transfer"
                ["0a8077182848001f47826e249f5d8e821ea263bd";
                 "1a677a3795f8a24b5dd99f83ea31f87595e25db1"; "100000"])).
    vm_compute. tauto.
  - split; [ vm_compute; reflexivity | ].
    apply (proj1 (proj2 (failures_caught_at_top_level world_ok host_default))).
    vm_compute. reflexivity.
Defined.

(** ** Configuration *)

Lemma env_or_unset (h : Host) (name fallback : string) :
  process_env h !! name = None -> env_or h name fallback = fallback.
Proof. unfold env_or. now intros ->. Qed.

Lemma env_or_set (h : Host) (name fallback v : string) :
  process_env h !! name = Some v -> v <> "" -> env_or h name fallback = v.
Proof.
  unfold env_or. intros -> Hv.
  destruct (String.eqb v "") eqn:E; [ | reflexivity ].
  apply String.eqb_eq in E. contradiction.
Qed.

(** A variable set to the empty string counts as unset. *)
Lemma env_or_empty (h : Host) (name fallback : string) :
  process_env h !! name = Some "" -> env_or h name fallback = fallback.
Proof. unfold env_or. now intros ->. Qed.

(** C6.  With CHANNEL_NAME unset the channel name is mychannel, with
    CHAINCODE_NAME unset the contract name is basic, and a variable set to a
    non-empty string gives the name instead; these are the names every call
    of [gateway.getNetwork] and [network.getContract] receives. *)
Theorem names_from_environment (w : World) (h : Host) :
  (process_env h !! "CHANNEL_NAME" = None -> channelName h = "mychannel") /\
  (process_env h !! "CHAINCODE_NAME" = None -> chaincodeName h = "basic") /\
  (forall v, process_env h !! "CHANNEL_NAME" = Some v -> v <> "" ->
             channelName h = v) /\
  (forall v, process_env h !! "CHAINCODE_NAME" = Some v -> v <> "" ->
             chaincodeName h = v) /\
  (forall gateway name r,
     In (Call (GetNetwork gateway name) r) (fst (execute w h)) ->
     name = channelName h) /\
  (forall network name r,
     In (Call (GetContract network name) r) (fst (execute w h)) ->
     name = chaincodeName h).
Proof.
  assert (Hall : Forall (fun e =>
                           match e with
                           | Call (GetNetwork _ name) _ => name = channelName h
                           | Call (GetContract _ name) _ => name = chaincodeName h
                           | _ => True
                           end) (fst (execute w h)))
    by (run_cases; cbn; repeat constructor).
  rewrite List.Forall_forall in Hall.
  repeat split.
  - apply env_or_unset.
  - apply env_or_unset.
  - intros v. apply env_or_set.
  - intros v. apply env_or_set.
  - intros gateway name r Hin. exact (Hall _ Hin).
  - intros network name r Hin. exact (Hall _ Hin).
Qed.

(** With no variable set the names are the defaults; with both set, the
    values given. *)
Lemma names_from_environment_witness :
  (channelName host_default = "mychannel" /\ chaincodeName host_default = "basic") /\
  (channelName host_custom = "amlchannel" /\ chaincodeName host_custom = "aml").
Proof.
  destruct (names_from_environment world_ok host_default)
    as (Hchannel & Hchaincode & _).
  destruct (names_from_environment world_ok host_custom)
    as (_ & _ & Hchannel' & Hchaincode' & _).
  split; split.
  - apply Hchannel. vm_compute. reflexivity.
  - apply Hchaincode. vm_compute. reflexivity.
  - apply Hchannel'; [ vm_compute; reflexivity | discriminate ].
  - apply Hchaincode'; [ vm_compute; reflexivity | discriminate ].
Defined.

(** ** Results *)

(** C7.  In a run in which nothing fails, the six transactions are submitted
    ([InitLedger], then the five transfers), each submission is followed at
    once by a confirmation line on standard output (the committed line for
    [InitLedger], the formatted result for a transfer), which makes twelve
    lines with the six announcements, and the process exits with status 0. *)
Theorem confirmation_per_transaction (w : World) (h : Host) :
  clean w (fst (execute w h)) = true ->
  snd (execute w h) = 0%Z /\
  submissions (fst (execute w h))
    = ("InitLedger", []) :: map (pair "Transfer") transfer_calls /\
  (forall t1 contract name args r t2,
     fst (execute w h) = (t1 ++ Call (SubmitTransaction contract name args) r :: t2)%list ->
     exists m rest, t2 = ConsoleLog m :: rest /\ is_confirmation m) /\
  List.length (console_logs (fst (execute w h))) = 12%nat.
Proof.
  intros Hclean.
  assert (Hall :
    clean w (fst (execute w h)) = true ->
    snd (execute w h) = 0%Z /\
    submissions (fst (execute w h))
      = ("InitLedger", []) :: map (pair "Transfer") transfer_calls /\
    each_split
      (fun _ e after =>
         match e with
         | Call (SubmitTransaction _ _ _) _ =>
             exists m rest, after = ConsoleLog m :: rest /\ is_confirmation m
         | _ => True
         end) [] (fst (execute w h)) /\
    List.length (console_logs (fst (execute w h))) = 12%nat).
  { clear. run_cases; cbn; unfold formattable; use_validity; cbn; intros Hclean;
      try discriminate Hclean.
    repeat split; try reflexivity.
    - do 2 eexists. split; [ reflexivity | left; reflexivity ].
    - do 2 eexists. split; [ reflexivity | right; eexists; reflexivity ].
    - do 2 eexists. split; [ reflexivity | right; eexists; reflexivity ].
    - do 2 eexists. split; [ reflexivity | right; eexists; reflexivity ].
    - do 2 eexists. split; [ reflexivity | right; eexists; reflexivity ].
    - do 2 eexists. split; [ reflexivity | right; eexists; reflexivity ]. }
  destruct (Hall Hclean) as (Hstatus & Hsub & Heach & Hcount).
  repeat split; try assumption.
  intros t1 contract name args r t2 Hsplit.
  exact (each_split_spec _ _ Heach t1 _ t2 Hsplit).
Qed.

(** On [world_ok] nothing fails: six submissions, status 0. *)
Lemma confirmation_per_transaction_witness :
  clean world_ok (fst (execute world_ok host_default)) = true /\
  snd (execute world_ok host_default) = 0%Z /\
  List.length (submissions (fst (execute world_ok host_default))) = 6%nat.
Proof.
  assert (Hclean : clean world_ok (fst (execute world_ok host_default)) = true)
    by (vm_compute; reflexivity).
  destruct (confirmation_per_transaction world_ok host_default Hclean)
    as (Hstatus & Hsub & _).
  split; [ exact Hclean | split; [ exact Hstatus | ] ].
  rewrite Hsub. reflexivity.
Defined.

(** [prettyJSONString] throws on a text that is not JSON, and returns the
    rendering of one that is when the platform can render its value. *)
Lemma prettyJSONString_throws (w : World) (text : string) :
  JSON.valid text = false -> prettyJSONString w text = ([], Throw (SyntaxError text)).
Proof. unfold prettyJSONString. now intros ->. Qed.

Lemma prettyJSONString_returns (w : World) (text : string) :
  formattable w text = true -> prettyJSONString w text = ([], Normal (Pretty text)).
Proof.
  unfold prettyJSONString, formattable. intros [-> ->]%andb_true_iff. reflexivity.
Qed.

Lemma prettyJSONString_overflows (w : World) (text : string) :
  JSON.valid text = true -> on_JSON_stringify w (JSON.trim text) = false ->
  prettyJSONString w text = ([], Throw (RangeError text)).
Proof. unfold prettyJSONString. now intros -> ->. Qed.

(** C9.  That all six submissions succeed does not make the process exit
    with status 0.  Whenever a [Transfer] returns a payload that is not JSON
    text, [prettyJSONString] throws on it, no confirmation is printed for it,
    nothing is submitted after it, the handler prints the syntax error, and
    the status is 1.  The empty payload is such a payload, and on
    [world_empty_payload] the six submissions all return and the status is 1. *)
Theorem unformattable_result_aborts :
  (forall (w : World) (h : Host) t1 t2 contract args payload,
     fst (execute w h)
       = (t1 ++ Call (SubmitTransaction contract "Transfer" args)
                     (Returned (VBuffer payload)) :: t2)%list ->
     JSON.valid payload = false ->
     prettyJSONString w payload = ([], Throw (SyntaxError payload)) /\
     submissions t2 = [] /\
     console_logs t2 = [] /\
     console_errors (fst (execute w h)) = [failed_line (SyntaxError payload)] /\
     snd (execute w h) = 1%Z) /\
  JSON.valid "" = false /\
  (map fst (submissions (fst (execute world_empty_payload host_default)))
     = ["InitLedger"; "Transfer"; "Transfer"; "Transfer"; "Transfer"; "Transfer"] /\
   existsb threw (fst (execute world_empty_payload host_default)) = false /\
   snd (execute world_empty_payload host_default) = 1%Z).
Proof.
  split; [ | vm_compute; repeat split; reflexivity ].
  intros w h t1 t2 contract args payload Hsplit Hvalid.
  split; [ now apply prettyJSONString_throws | ].
  revert Hvalid.
  refine (each_split_spec
    (fun _ e after =>
       match e with
       | Call (SubmitTransaction _ name _) (Returned (VBuffer b)) =>
           name = "Transfer" -> JSON.valid b = false ->
           submissions after = [] /\
           console_logs after = [] /\
           console_errors (fst (execute w h)) = [failed_line (SyntaxError b)] /\
           snd (execute w h) = 1%Z
       | _ => True
       end) _ _ t1 _ t2 Hsplit eq_refl).
  clear. run_cases; cbn; repeat split; try discriminate; congruence.
Qed.

(** On [world_empty_payload] the fifth transfer returns the empty payload. *)
Lemma unformattable_result_aborts_witness :
  JSON.valid "" = false /\
  console_errors (fst (execute world_empty_payload host_default))
    = [failed_line (SyntaxError "")] /\
  snd (execute world_empty_payload host_default) = 1%Z.
Proof.
  split; [ vm_compute; reflexivity | ].
  assert (Hsplit : fst (execute world_empty_payload host_default)
      = (take 25 (fst (execute world_empty_payload host_default))
         ++ Call (SubmitTransaction 6%nat "Transfer"
                    ["78e15f1699dbb6c8a438e90c02044cfa9b9233f3";
                     "17732863dbd50ee07039048d05d1a144297492b2"; "220000000"])
                 (Returned (VBuffer ""))
         :: drop 26 (fst (execute world_empty_payload host_default)))%list)
    by (vm_compute; reflexivity).
  destruct (proj1 unformattable_result_aborts world_empty_payload host_default
              _ _ _ _ _ Hsplit)
    as (_ & _ & _ & Herrors & Hstatus).
  - vm_compute. reflexivity.
  - split; assumption.
Defined.

(** ** Identity *)

(** C10.  Whenever the gateway is connected, the identity it is given is the
    label javascriptAppUser, and the wallet it is given is the wallet that
    [buildWallet] returned earlier in the run and into which [enrollAdmin]
    and [registerAndEnrollUser] have enrolled, with the same CA client, the
    admin and that very label under the MSP Org1MSP. *)
Theorem gateway_identity_is_enrolled (w : World) (h : Host)
    (t1 t2 : trace) (gateway ccp : obj) (options : GatewayOptions) (r : reply) :
  fst (execute w h) = (t1 ++ Call (Connect gateway ccp options) r :: t2)%list ->
  identity options = "javascriptAppUser" /\
  exists caClient,
    In (Call (BuildWallet (walletPath h)) (Returned (VObject (wallet options)))) t1 /\
    In (Call (EnrollAdmin caClient (wallet options) "Org1MSP") (Returned VUndefined)) t1 /\
    In (Call (RegisterAndEnrollUser caClient (wallet options) "Org1MSP"
                (identity options) "org1.department1")
             (Returned VUndefined)) t1.
Proof.
  intros Hsplit.
  refine (each_split_spec
    (fun before e _ =>
       match e with
       | Call (Connect _ _ opts) _ =>
           identity opts = "javascriptAppUser" /\
           exists caClient,
             In (Call (BuildWallet (walletPath h)) (Returned (VObject (wallet opts))))
                before /\
             In (Call (EnrollAdmin caClient (wallet opts) "Org1MSP")
                      (Returned VUndefined)) before /\
             In (Call (RegisterAndEnrollUser caClient (wallet opts) "Org1MSP"
                         (identity opts) "org1.department1")
                      (Returned VUndefined)) before
       | _ => True
       end) _ _ t1 _ t2 Hsplit).
  clear. run_cases; cbn; repeat split; eexists;
    repeat split; repeat (first [ left; reflexivity | right ]).
Qed.

(** On [world_ok] the gateway is connected with wallet 3, the wallet built
    and enrolled into before. *)
Lemma gateway_identity_is_enrolled_witness :
  exists t1 t2,
    fst (execute world_ok host_default)
      = (t1 ++ Call (Connect 4%nat 1%nat
                       {| wallet := 3%nat;
                          identity := "javascriptAppUser";
                          discovery := {| enabled := true; asLocalhost := true |} |})
                    (Returned VUndefined) :: t2)%list /\
    In (Call (RegisterAndEnrollUser 2%nat 3%nat "Org1MSP" "javascriptAppUser"
                "org1.department1") (Returned VUndefined)) t1.
Proof.
  exists (take 6 (fst (execute world_ok host_default))),
         (drop 7 (fst (execute world_ok host_default))).
  assert (Hsplit : fst (execute world_ok host_default)
      = (take 6 (fst (execute world_ok host_default))
         ++ Call (Connect 4%nat 1%nat
                    {| wallet := 3%nat;
                       identity := "javascriptAppUser";
                       discovery := {| enabled := true; asLocalhost := true |} |})
                 (Returned VUndefined)
         :: drop 7 (fst (execute world_ok host_default)))%list)
    by (vm_compute; reflexivity).
  split; [ exact Hsplit | ].
  destruct (gateway_identity_is_enrolled world_ok host_default _ _ _ _ _ _ Hsplit)
    as (_ & caClient & _ & _ & Hin).
  vm_compute. vm_compute in Hin. tauto.
Defined.

(** * Further properties of the script *)

(** ** How the calls are wired *)

(** X1.  In every run each call receives what the earlier calls returned:
    the CA client is built from the connection profile that [buildCCPOrg1]
    returned, for the host ca.org1.example.com; the wallet is built at the
    wallet path; the enrolments use that CA client and that wallet; the
    gateway that is connected is the one just created, with the same
    connection profile and with discovery enabled as localhost; the network
    is resolved on the connected gateway, the contract on that network, and
    every transaction is submitted to that contract; [disconnect] is called
    on the created gateway. *)
Theorem calls_are_wired (w : World) (h : Host) (t1 t2 : trace) (e : event) :
  fst (execute w h) = (t1 ++ e :: t2)%list -> wired h t1 e.
Proof.
  intros Hsplit.
  refine (each_split_spec (fun before e _ => wired h before e) _ _ t1 e t2 Hsplit).
  clear. run_cases; cbn; repeat split; try (do 2 eexists); try eexists;
    repeat (first [ left; reflexivity | right ]).
Qed.

(** On [world_ok] the contract of the first submission is object 6, which
    [getContract] returned. *)
Lemma calls_are_wired_witness :
  exists network,
    In (Call (GetContract network "basic") (Returned (VObject 6%nat)))
       (take 10 (fst (execute world_ok host_default))).
Proof.
  assert (Hsplit : fst (execute world_ok host_default)
      = (take 10 (fst (execute world_ok host_default))
         ++ Call (SubmitTransaction 6%nat "InitLedger" []) (Returned (VBuffer ""))
         :: drop 11 (fst (execute world_ok host_default)))%list)
    by (vm_compute; reflexivity).
  exact (calls_are_wired world_ok host_default _ _ _ Hsplit).
Defined.

(** X10.  The calls of a run are made in the order of the statements of
    [main]: leaving the final [disconnect] aside they are an initial segment
    of the fifteen calls of the source, and [disconnect], on the gateways
    created, comes after all of them. *)
Theorem calls_in_source_order (w : World) (h : Host) :
  map callee (issued (fst (execute w h)))
    = take (List.length (issued (fst (execute w h)))) script_calls /\
  calls (fst (execute w h))
    = (issued (fst (execute w h)) ++ map Disconnect (gateways (fst (execute w h))))%list.
Proof.
  run_cases; cbn; split; reflexivity.
Qed.

(** X4.  No call is made twice in a run: nothing is retried. *)
Theorem no_call_repeated (w : World) (h : Host) :
  List.NoDup (calls (fst (execute w h))).
Proof.
  run_cases; cbn;
    repeat (constructor; [ cbn; intuition discriminate | ]); constructor.
Qed.

(** ** What follows a failure *)

(** X2.  Whichever call throws, nothing is attempted after it: the rest of
    the run is the [disconnect] of the gateway, when one was created, and
    the line of the top-level handler carrying the thrown value. *)
Theorem nothing_after_a_throw (w : World) (h : Host)
    (t1 t2 : trace) (c : call) (reason : string) :
  fst (execute w h) = (t1 ++ Call c (Threw reason) :: t2)%list ->
  (gateways t1 = [] /\ t2 = [ConsoleError (failed_line (Rejected reason))]) \/
  (exists gateway,
     gateways t1 = [gateway] /\
     t2 = [Call (Disconnect gateway) (Returned VUndefined);
           ConsoleError (failed_line (Rejected reason))]).
Proof.
  intros Hsplit.
  refine (each_split_spec
    (fun before e after =>
       match e with
       | Call _ (Threw why) =>
           (gateways before = [] /\ after = [ConsoleError (failed_line (Rejected why))]) \/
           (exists gateway,
              gateways before = [gateway] /\
              after = [Call (Disconnect gateway) (Returned VUndefined);
                       ConsoleError (failed_line (Rejected why))])
       | _ => True
       end) _ _ t1 _ t2 Hsplit).
  clear. run_cases; cbn; repeat split;
    first [ left; split; reflexivity | right; eexists; split; reflexivity ].
Qed.

(** On [world_rejecting] the rejected third transfer is followed by the
    disconnect of gateway 4 and the failure line. *)
Lemma nothing_after_a_throw_witness :
  drop 20 (fst (execute world_rejecting host_default))
  = [Call (Disconnect 4%nat) (Returned VUndefined);
     ConsoleError (failed_line (Rejected "Error: No valid responses from any peers"))].
Proof.
  assert (Hsplit : fst (execute world_rejecting host_default)
      = (take 19 (fst (execute world_rejecting host_default))
         ++ Call (SubmitTransaction 6%nat "Transfer"
                    ["0a8077182848001f47826e249f5d8e821ea263bd";
                     "1a677a3795f8a24b5dd99f83ea31f87595e25db1"; "100000"])
                 (Threw "Error: No valid responses from any peers")
         :: drop 20 (fst (execute world_rejecting host_default)))%list)
    by (vm_compute; reflexivity).
  destruct (nothing_after_a_throw world_rejecting host_default _ _ _ _ Hsplit)
    as [[Hnone _] | (gateway & Hgateway & Hrest)].
  - vm_compute in Hnone. discriminate Hnone.
  - vm_compute in Hgateway. injection Hgateway as <-. exact Hrest.
Defined.

(** X9.  The gateway is not used once it is disconnected: after the call of
    [disconnect] the run makes no call and prints no progress line; at most
    the failure line of the top-level handler follows. *)
Theorem nothing_after_disconnect (w : World) (h : Host)
    (t1 t2 : trace) (gateway : obj) (r : reply) :
  fst (execute w h) = (t1 ++ Call (Disconnect gateway) r :: t2)%list ->
  (t2 = [] /\ snd (execute w h) = 0%Z) \/
  (exists error, t2 = [ConsoleError (failed_line error)] /\ snd (execute w h) = 1%Z).
Proof.
  intros Hsplit.
  refine (each_split_spec
    (fun _ e after =>
       match e with
       | Call (Disconnect _) _ =>
           (after = [] /\ snd (execute w h) = 0%Z) \/
           (exists error,
              after = [ConsoleError (failed_line error)] /\ snd (execute w h) = 1%Z)
       | _ => True
       end) _ _ t1 _ t2 Hsplit).
  clear. run_cases; cbn; repeat split;
    first [ left; split; reflexivity | right; eexists; split; reflexivity ].
Qed.

(** On [world_ok] the disconnect is the last event of the run. *)
Lemma nothing_after_disconnect_witness :
  drop 28 (fst (execute world_ok host_default)) = [] /\
  snd (execute world_ok host_default) = 0%Z.
Proof.
  assert (Hsplit : fst (execute world_ok host_default)
      = (take 27 (fst (execute world_ok host_default))
         ++ Call (Disconnect 4%nat) (Returned VUndefined)
         :: drop 28 (fst (execute world_ok host_default)))%list)
    by (vm_compute; reflexivity).
  destruct (nothing_after_disconnect world_ok host_default _ _ _ _ Hsplit)
    as [Hend | (error & _ & Hstatus)].
  - exact Hend.
  - vm_compute in Hstatus. discriminate Hstatus.
Defined.

(** X3.  [main] never lets an exception escape and never exits with another
    code than 1: it returns, or it ends the process with [process.exit(1)];
    the exit status of a run is 0 or 1. *)
Theorem main_returns_or_exits_1 (w : World) (h : Host) :
  (snd (main w h) = Normal tt \/ snd (main w h) = Exit 1%Z) /\
  (snd (execute w h) = 0%Z \/ snd (execute w h) = 1%Z).
Proof.
  split.
  - runs_of (main w h); cbn;
      first [ left; match goal with |- Normal ?u = _ => destruct u end; reflexivity
            | right; reflexivity ].
  - run_cases; cbn; first [ left; reflexivity | right; reflexivity ].
Qed.

(** ** What is printed *)

(** X5.  A confirmation is printed only for a transaction that was
    committed: the committed line comes right after an [InitLedger]
    submission that returned, and a result line right after a [Transfer]
    submission that returned; the result printed is the rendering of the
    payload of that very submission, which is JSON text. *)
Theorem confirmation_follows_commit (w : World) (h : Host)
    (t1 t2 : trace) (m : message) :
  fst (execute w h) = (t1 ++ ConsoleLog m :: t2)%list ->
  (m = Literal "*** Result: committed" ->
   exists contract payload,
     last t1 = Some (Call (SubmitTransaction contract "InitLedger" [])
                          (Returned (VBuffer payload)))) /\
  (forall prefix text, m = Template prefix (HPretty (Pretty text)) ->
   prefix = "*** Result: " /\ JSON.valid text = true /\
   exists contract args,
     last t1 = Some (Call (SubmitTransaction contract "Transfer" args)
                          (Returned (VBuffer text)))).
Proof.
  intros Hsplit.
  refine (each_split_spec
    (fun before e _ =>
       match e with
       | ConsoleLog m =>
           (m = Literal "*** Result: committed" ->
            exists contract payload,
              last before = Some (Call (SubmitTransaction contract "InitLedger" [])
                                       (Returned (VBuffer payload)))) /\
           (forall prefix text, m = Template prefix (HPretty (Pretty text)) ->
            prefix = "*** Result: " /\ JSON.valid text = true /\
            exists contract args,
              last before = Some (Call (SubmitTransaction contract "Transfer" args)
                                       (Returned (VBuffer text))))
       | _ => True
       end) _ _ t1 _ t2 Hsplit).
  clear. run_cases; cbn; repeat split; try discriminate;
    repeat match goal with
           | Hm : Template _ _ = Template _ _ |- _ => injection Hm as <- <-
           end;
    first [ reflexivity | assumption | intros; do 2 eexists; reflexivity ].
Qed.

(** On [world_ok] the first result line renders the payload of the first
    transfer. *)
Lemma confirmation_follows_commit_witness :
  exists contract args,
    last (take 14 (fst (execute world_ok host_default)))
    = Some (Call (SubmitTransaction contract "Transfer" args) (Returned (VBuffer "{}"))).
Proof.
  assert (Hsplit : fst (execute world_ok host_default)
      = (take 14 (fst (execute world_ok host_default))
         ++ ConsoleLog (Template "*** Result: " (HPretty (Pretty "{}")))
         :: drop 15 (fst (execute world_ok host_default)))%list)
    by (vm_compute; reflexivity).
  destruct (confirmation_follows_commit world_ok host_default _ _ _ Hsplit)
    as [_ Hresult].
  destruct (Hresult _ _ eq_refl) as (_ & _ & Hlast).
  exact Hlast.
Defined.

(** X6.  The result of [InitLedger] is not parsed: whatever payload it
    returns, JSON text or not, the driver prints the committed line,
    announces the first transfer and submits it to the same contract. *)
Theorem init_ledger_result_is_not_parsed (w : World) (h : Host)
    (t1 t2 : trace) (contract : obj) (args : list string) (payload : Buffer) :
  fst (execute w h)
    = (t1 ++ Call (SubmitTransaction contract "InitLedger" args)
                  (Returned (VBuffer payload)) :: t2)%list ->
  exists r rest,
    t2 = ConsoleLog (Literal "*** Result: committed")
         :: ConsoleLog (Literal (nl ++ "--> 트랜스퍼 101"))
         :: Call (SubmitTransaction contract "Transfer"
                    ["7cafb40b30e8f7f0c8f57393e2ea63ff58a95907";
                     "f5c705db130ec0cbda536bfacc8e38425b427862"; "7500000"]) r
         :: rest.
Proof.
  intros Hsplit.
  refine (each_split_spec
    (fun _ e after =>
       match e with
       | Call (SubmitTransaction c name _) (Returned _) =>
           name = "InitLedger" ->
           exists r rest,
             after = ConsoleLog (Literal "*** Result: committed")
                     :: ConsoleLog (Literal (nl ++ "--> 트랜스퍼 101"))
                     :: Call (SubmitTransaction c "Transfer"
                                ["7cafb40b30e8f7f0c8f57393e2ea63ff58a95907";
                                 "f5c705db130ec0cbda536bfacc8e38425b427862";
                                 "7500000"]) r
                     :: rest
       | _ => True
       end) _ _ t1 _ t2 Hsplit eq_refl).
  clear. run_cases; cbn; repeat split; try discriminate;
    intros _; do 2 eexists; reflexivity.
Qed.

(** On [world_ok] [InitLedger] returns the empty payload, which is not JSON
    text, and the first transfer is submitted all the same. *)
Lemma init_ledger_result_is_not_parsed_witness :
  JSON.valid "" = false /\
  exists r rest,
    drop 11 (fst (execute world_ok host_default))
    = ConsoleLog (Literal "*** Result: committed")
      :: ConsoleLog (Literal (nl ++ "--> 트랜스퍼 101"))
      :: Call (SubmitTransaction 6%nat "Transfer"
                 ["7cafb40b30e8f7f0c8f57393e2ea63ff58a95907";
                  "f5c705db130ec0cbda536bfacc8e38425b427862"; "7500000"]) r
      :: rest.
Proof.
  split; [ vm_compute; reflexivity | ].
  assert (Hsplit : fst (execute world_ok host_default)
      = (take 10 (fst (execute world_ok host_default))
         ++ Call (SubmitTransaction 6%nat "InitLedger" []) (Returned (VBuffer ""))
         :: drop 11 (fst (execute world_ok host_default)))%list)
    by (vm_compute; reflexivity).
  exact (init_ledger_result_is_not_parsed world_ok host_default _ _ _ _ _ Hsplit).
Defined.

(** ** The environment *)

Lemma env_or_not_empty (h : Host) (name fallback : string) :
  fallback <> "" -> env_or h name fallback <> "".
Proof.
  intros Hfallback. unfold env_or.
  destruct (process_env h !! name) as [v|]; [ | exact Hfallback ].
  destruct (String.eqb v "") eqn:E; [ exact Hfallback | ].
  now apply String.eqb_neq in E.
Qed.

(** X7.  Whatever the environment holds, the channel name and the contract
    name are never empty, and a variable set to the empty string gives the
    default, as an unset one does; so [getNetwork] and [getContract] are
    never called with an empty name. *)
Theorem names_are_never_empty (w : World) (h : Host) :
  channelName h <> "" /\ chaincodeName h <> "" /\
  (process_env h !! "CHANNEL_NAME" = Some "" -> channelName h = "mychannel") /\
  (process_env h !! "CHAINCODE_NAME" = Some "" -> chaincodeName h = "basic") /\
  Forall (fun c => match c with
                   | GetNetwork _ name | GetContract _ name => name <> ""
                   | _ => True
                   end) (calls (fst (execute w h))).
Proof.
  assert (Hchannel : channelName h <> "") by (now apply env_or_not_empty).
  assert (Hchaincode : chaincodeName h <> "") by (now apply env_or_not_empty).
  assert (Hall : Forall (fun c => match c with
                                  | GetNetwork _ name => name = channelName h
                                  | GetContract _ name => name = chaincodeName h
                                  | _ => True
                                  end) (calls (fst (execute w h))))
    by (run_cases; cbn; repeat constructor).
  repeat split; try assumption; try apply env_or_empty.
  revert Hall. apply List.Forall_impl.
  intros c; destruct c; try exact (fun _ => I); now intros ->.
Qed.

(** With CHANNEL_NAME set to the empty string the channel is mychannel. *)
Lemma names_are_never_empty_witness :
  process_env host_empty_name !! "CHANNEL_NAME" = Some "" /\
  channelName host_empty_name = "mychannel".
Proof.
  assert (Hset : process_env host_empty_name !! "CHANNEL_NAME" = Some "")
    by (vm_compute; reflexivity).
  split; [ exact Hset | ].
  exact (proj1 (proj2 (proj2 (names_are_never_empty world_ok host_empty_name))) Hset).
Defined.

(** X8.  The script itself reads no other environment variable than
    CHANNEL_NAME and CHAINCODE_NAME.  The helpers and the SDK may read the
    environment on their own account (HFC_LOGGING, for one, changes what the
    SDK writes to the console); against the same answers from them, setting
    another variable changes neither the calls [main] makes and their
    arguments, nor the lines [main] prints, nor the status it ends with. *)
Theorem other_variables_are_ignored (w : World) (h : Host) (name v : string) :
  name <> "CHANNEL_NAME" -> name <> "CHAINCODE_NAME" ->
  execute w {| process_env := <[name := v]> (process_env h);
               walletPath := walletPath h |}
  = execute w h.
Proof.
  intros Hchannel Hchaincode.
  unfold execute, main, channelName, chaincodeName, env_or. cbn.
  rewrite !lookup_insert_ne by assumption. reflexivity.
Qed.

(** Setting CHANNEL on the default host changes nothing: the variable the
    script reads is CHANNEL_NAME. *)
Lemma other_variables_are_ignored_witness :
  execute world_ok {| process_env := <["CHANNEL" := "amlchannel"]> (process_env host_default);
                      walletPath := walletPath host_default |}
  = execute world_ok host_default.
Proof.
  apply other_variables_are_ignored; discriminate.
Defined.

(** ** Results and white space *)

Lemma is_ws_cases (c : ascii) :
  JSON.is_ws c = true ->
  c = "009"%char \/ c = "010"%char \/ c = "013"%char \/ c = " "%char.
Proof.
  destruct c as [[] [] [] [] [] [] [] []]; cbv; intros H;
    first [ discriminate H | tauto ].
Qed.

Lemma run_leading_blank (l s : string) :
  blank l = true -> JSON.run JSON.MValue [] (l ++ s) = JSON.run JSON.MValue [] s.
Proof.
  induction l as [|c l IH]; [ reflexivity | ].
  cbn [blank]. intros [Hc Hl]%andb_true_iff.
  change (String c l ++ s) with (String c (l ++ s)).
  cbn [JSON.run JSON.step]. rewrite Hc. now apply IH.
Qed.

(** Reading a white-space character does not change whether the text read
    so far is a whole value. *)
Lemma step_blank (m : JSON.mode) (st : list JSON.container) (c : ascii) :
  JSON.is_ws c = true -> solid m = true ->
  match JSON.step m st c with
  | Some (m', st') => JSON.accepting m' st' = JSON.accepting m st /\ solid m' = true
  | None => JSON.accepting m st = false
  end.
Proof.
  intros Hc Hm.
  destruct m as [ | | | | | | key | key | key n | rest | | | | | | | | ];
    try (destruct (is_ws_cases c Hc) as [-> | [-> | [-> | ->]]];
         destruct st as [|[] st]; try destruct key; try destruct n;
         cbn; first [ reflexivity | split; reflexivity ]).
  destruct rest as [|x rest]; [ destruct st; reflexivity | ].
  cbn in Hm. apply andb_true_iff in Hm as [Hx Hrest].
  cbn [JSON.step]. destruct (Ascii.eqb_spec c x) as [-> | _].
  - rewrite Hc in Hx. discriminate Hx.
  - destruct st; reflexivity.
Qed.

Lemma run_blank (r : string) :
  blank r = true ->
  forall m st, solid m = true -> JSON.run m st r = JSON.accepting m st.
Proof.
  induction r as [|c r IH]; [ reflexivity | ].
  cbn [blank]. intros [Hc Hr]%andb_true_iff m st Hm.
  cbn [JSON.run]. pose proof (step_blank m st c Hc Hm) as Hstep.
  destruct (JSON.step m st c) as [[m' st']|].
  - destruct Hstep as [Hacc Hsolid]. rewrite (IH Hr m' st' Hsolid). exact Hacc.
  - now rewrite Hstep.
Qed.

(** The recogniser never comes to wait for a white-space character inside a
    literal. *)
Lemma step_solid (m : JSON.mode) (st : list JSON.container) (c : ascii) :
  solid m = true ->
  match JSON.step m st c with
  | Some (m', _) => solid m' = true
  | None => True
  end.
Proof.
  intros Hm.
  assert (Hstart : match JSON.value_start st c with
                   | Some (m', _) => solid m' = true
                   | None => True
                   end).
  { unfold JSON.value_start.
    repeat match goal with
           | |- context [if ?b then _ else _] => destruct b
           end; exact I || reflexivity. }
  assert (Hafter : match JSON.after st c with
                   | Some (m', _) => solid m' = true
                   | None => True
                   end).
  { unfold JSON.after.
    repeat match goal with
           | |- context [if ?b then _ else _] => destruct b
           | |- context [match ?s with [] => _ | _ :: _ => _ end] => destruct s
           | |- context [match ?k with JSON.InArray => _ | JSON.InObject => _ end] =>
               destruct k
           end; exact I || reflexivity. }
  destruct m as [ | | | | | | key | key | key n | rest | | | | | | | | ];
    cbn [JSON.step];
    try exact Hafter;
    repeat match goal with
           | |- match JSON.value_start _ _ with _ => _ end => exact Hstart
           | |- match JSON.after _ _ with _ => _ end => exact Hafter
           | |- context [if ?b then _ else _] => destruct b
           | |- context [match ?s with [] => _ | _ :: _ => _ end] => destruct s
           | |- context [match ?k with JSON.InArray => _ | JSON.InObject => _ end] =>
               destruct k
           | |- context [match ?k with O => _ | S _ => _ end] => destruct k
           end;
    try (exact I || reflexivity).
  all: cbn in Hm; apply andb_true_iff in Hm as [_ Hm]; exact Hm.
Qed.

Lemma run_trailing_blank (s r : string) :
  blank r = true ->
  forall m st, solid m = true -> JSON.run m st (s ++ r) = JSON.run m st s.
Proof.
  intros Hr. induction s as [|c s IH]; intros m st Hm.
  - change ("" ++ r) with r. now apply run_blank.
  - change (String c s ++ r) with (String c (s ++ r)).
    cbn [JSON.run]. pose proof (step_solid m st c Hm) as Hstep.
    destruct (JSON.step m st c) as [[m' st']|]; [ now apply IH | reflexivity ].
Qed.

(** X11.  [prettyJSONString] throws on every text that is empty or holds
    white space only: such a result cannot be formatted. *)
Theorem blank_result_is_rejected (w : World) (text : string) :
  blank text = true ->
  JSON.valid text = false /\
  prettyJSONString w text = ([], Throw (SyntaxError text)).
Proof.
  intros Hblank.
  assert (Hvalid : JSON.valid text = false)
    by (unfold JSON.valid; now rewrite (run_blank text Hblank JSON.MValue [] eq_refl)).
  split; [ exact Hvalid | ].
  unfold prettyJSONString. now rewrite Hvalid.
Qed.

(** A space and a line feed. *)
Lemma blank_result_is_rejected_witness :
  prettyJSONString world_ok (" " ++ nl) = ([], Throw (SyntaxError (" " ++ nl))).
Proof.
  apply (blank_result_is_rejected world_ok (" " ++ nl)). reflexivity.
Defined.

(** White space around a text is not part of the value it writes. *)
Lemma ltrim_leading_blank (l s : string) :
  blank l = true -> JSON.ltrim (l ++ s) = JSON.ltrim s.
Proof.
  induction l as [|c l IH]; [ reflexivity | ].
  cbn [blank]. intros [Hc Hl]%andb_true_iff.
  change (String c l ++ s) with (String c (l ++ s)).
  cbn [JSON.ltrim]. rewrite Hc. now apply IH.
Qed.

Lemma rtrim_blank (r : string) : blank r = true -> JSON.rtrim r = "".
Proof.
  induction r as [|c r IH]; [ reflexivity | ].
  cbn [blank]. intros [Hc Hr]%andb_true_iff.
  cbn [JSON.rtrim]. now rewrite (IH Hr), Hc.
Qed.

Lemma rtrim_trailing_blank (s r : string) :
  blank r = true -> JSON.rtrim (s ++ r) = JSON.rtrim s.
Proof.
  intros Hr. induction s as [|c s IH].
  - change ("" ++ r) with r. now apply rtrim_blank.
  - change (String c s ++ r) with (String c (s ++ r)).
    cbn [JSON.rtrim]. now rewrite IH.
Qed.

Lemma trim_trailing_blank (s r : string) :
  blank r = true -> JSON.trim (s ++ r) = JSON.trim s.
Proof.
  intros Hr. unfold JSON.trim. induction s as [|c s IH].
  - change ("" ++ r) with r. cbn [JSON.ltrim JSON.rtrim].
    assert (Hall : forall t, blank t = true -> JSON.ltrim t = "").
    { induction t as [|x t IHt]; [ reflexivity | ].
      cbn [blank]. intros [Hx Ht]%andb_true_iff.
      cbn [JSON.ltrim]. rewrite Hx. now apply IHt. }
    now rewrite (Hall r Hr).
  - change (String c s ++ r) with (String c (s ++ r)).
    cbn [JSON.ltrim]. destruct (JSON.is_ws c); [ exact IH | ].
    exact (rtrim_trailing_blank (String c s) r Hr).
Qed.

Lemma trim_padding (l s r : string) :
  blank l = true -> blank r = true -> JSON.trim (l ++ s ++ r) = JSON.trim s.
Proof.
  intros Hl Hr. unfold JSON.trim. rewrite (ltrim_leading_blank l (s ++ r) Hl).
  exact (trim_trailing_blank s r Hr).
Qed.

(** X12.  White space around a result does not matter: [prettyJSONString]
    returns on a text padded with white space on either side exactly when it
    returns on the text itself. *)
Theorem padding_does_not_matter (w : World) (l text r : string) :
  blank l = true -> blank r = true ->
  JSON.valid (l ++ text ++ r) = JSON.valid text /\
  (snd (prettyJSONString w (l ++ text ++ r)) = Normal (Pretty (l ++ text ++ r)) <->
   snd (prettyJSONString w text) = Normal (Pretty text)).
Proof.
  intros Hl Hr.
  assert (Hvalid : JSON.valid (l ++ text ++ r) = JSON.valid text).
  { unfold JSON.valid. rewrite (run_leading_blank l (text ++ r) Hl).
    now apply run_trailing_blank. }
  split; [ exact Hvalid | ].
  unfold prettyJSONString. rewrite Hvalid, (trim_padding l text r Hl Hr).
  destruct (JSON.valid text); [ destruct (on_JSON_stringify w (JSON.trim text)) | ];
    cbn; split; intros H; first [ reflexivity | discriminate H ].
Qed.

(** An object between a space and a line feed. *)
Lemma padding_does_not_matter_witness :
  JSON.valid (" " ++ "{}" ++ nl) = true.
Proof.
  rewrite (proj1 (padding_does_not_matter world_ok " " "{}" nl eq_refl eq_refl)).
  reflexivity.
Defined.

(** ** Before the first submission *)

(** X13.  When a call other than a transaction submission throws (a step of
    the identity setup, the gateway connect, the network or the contract
    resolution), no transaction is submitted at all and [main] reaches none
    of its own [console.log] statements (lines 119 to 158): it prints no
    progress line and no confirmation line. *)
Theorem no_submission_after_early_failure (w : World) (h : Host)
    (c : call) (reason : string) :
  In (Call c (Threw reason)) (fst (execute w h)) ->
  callee c <> "contract.submitTransaction" ->
  submissions (fst (execute w h)) = [] /\ console_logs (fst (execute w h)) = [].
Proof.
  run_cases; cbn; intros Hin Hc;
    repeat (destruct Hin as [Hin | Hin];
            [ first [ discriminate Hin
                    | injection Hin as <- <-;
                      first [ split; reflexivity | exfalso; apply Hc; reflexivity ] ]
            | ]);
    destruct Hin.
Qed.

(** On [world_no_profile] the connection profile cannot be built: nothing is
    submitted and [main] prints no progress line. *)
Lemma no_submission_after_early_failure_witness :
  submissions (fst (execute world_no_profile host_default)) = [] /\
  console_logs (fst (execute world_no_profile host_default)) = [].
Proof.
  apply (no_submission_after_early_failure world_no_profile host_default
           BuildCCPOrg1 "Error: no such file: connection-org1.json").
  - vm_compute. tauto.
  - discriminate.
Defined.

(** ** Results that cannot be formatted *)


